(** * Lead-acid Composite model: construction of the model object

    A shallow embedding of [pybamm/models/lead_acid/composite.py].  The file
    defines one class, [Composite], whose only method is its constructor.
    The constructor calls into the surrounding framework (submodel
    constructors, [BaseModel.update], the parameter-value loader, the
    standard parameter expressions), reads seven entries of the merged
    variables mapping, builds the first-order potential and voltage as
    symbolic expression trees, and stores three variables and a default
    parameter set on the model.

    The framework itself is not part of the file under study: it is taken
    as a parameter ([Framework]) and the theorems hold for every framework. *)

From Stdlib Require Import ZArith QArith Qcanon Field.
From stdpp Require Import base option gmap strings list.

Local Open Scope Z_scope.
Set Warnings "-register-all".

(** ** Symbolic expression trees

    The nodes the constructor builds or takes apart.  A Python operator
    applied to symbols builds the node of the same name; a Python numeric
    literal used as an operand is recorded as [Num]. *)

Inductive pyfunc : Type :=
| np_tanh.

Inductive expr : Type :=
| Num (n : Z)
| Symbol (name : string) (kids : list expr)
| SpatialVariable (name : string) (domain : list string)
| Negate (child : expr)
| Addition (l r : expr)
| Subtraction (l r : expr)
| Multiplication (l r : expr)
| Division (l r : expr)
| Power (l r : expr)
| Integral (child : expr) (integration_variable : expr)
| Function (f : pyfunc) (child : expr)
| Concatenation (kids : list expr).

Declare Scope expr_scope.
Delimit Scope expr_scope with E.
Bind Scope expr_scope with expr.

(** Python's operators, with Python's precedences: [**] binds tighter than
    unary minus, which binds tighter than [*] and [/], which bind tighter
    than [+] and [-]; the binary ones associate to the left. *)
Notation "a + b" := (Addition a b) : expr_scope.
Notation "a - b" := (Subtraction a b) : expr_scope.
Notation "a * b" := (Multiplication a b) : expr_scope.
Notation "a / b" := (Division a b) : expr_scope.
Notation "a ^ b" := (Power a b) : expr_scope.
Notation "- a" := (Negate a) : expr_scope.

(** Exceptions that can leave the constructor. *)
Inductive exn : Type :=
| KeyError (key : string)
| ValueError
| AttributeError
| Raised (what : string).

Inductive res (A : Type) : Type :=
| Returned (a : A)
| Raises (e : exn).
Arguments Returned {A} a.
Arguments Raises {A} e.

(** [symbol.children]: the child nodes of a symbol; a bare number has no
    such attribute. *)
Definition children (e : expr) : res (list expr) :=
  match e with
  | Num _ => Raises AttributeError
  | Symbol _ kids => Returned kids
  | SpatialVariable _ _ => Returned []
  | Negate a => Returned [a]
  | Addition a b | Subtraction a b | Multiplication a b
  | Division a b | Power a b => Returned [a; b]
  | Integral a _ => Returned [a]
  | Function _ a => Returned [a]
  | Concatenation kids => Returned kids
  end.

(** [a, b, c = xs]: unpacking into exactly three names. *)
Definition unpack3 {A : Type} (xs : list A) : res (A * A * A) :=
  match xs with
  | [a; b; c] => Returned (a, b, c)
  | _ => Raises ValueError
  end.

(** [d[k]] on a Python dict. *)
Definition getitem (d : gmap string expr) (k : string) : res expr :=
  match d !! k with
  | Some v => Returned v
  | None => Raises (KeyError k)
  end.

(** The observable steps of a construction, in the order the constructor
    attempts them. *)
Inductive step : Type :=
| S_BaseModel_init
| S_LOQS
| S_homogeneous_reaction
| S_StefanMaxwellDiffusionWithPorosity
| S_update
| S_set_variables
| S_ParameterValues
| S_set_default_parameter_values.

Section Model.

(** The framework's parameter-value table and the part of a model this
    file never names (right-hand sides, initial and boundary conditions). *)
Context {PV Rest : Type}.

Record BaseModel : Type := mkBaseModel {
  variables : gmap string expr;
  default_parameter_values : option PV;
  rest : Rest
}.

(** What the file imports from the framework.  The calls that build or
    load a model-level object (the base-class initialiser, the submodel
    constructors, [update], the parameter-value loader) may raise; the
    standard parameters are expressions or expression builders. *)
Record Framework : Type := mkFramework {
  BaseModel_init : BaseModel -> res BaseModel;
  BaseModel_update_rest : BaseModel -> BaseModel -> res (option PV * Rest);
  lead_acid_LOQS : res BaseModel;
  interface_homogeneous_reaction : res expr;
  electrolyte_StefanMaxwellDiffusionWithPorosity : expr -> res BaseModel;
  ParameterValues : string -> gmap string Z -> res PV;
  standard_parameters_ln : expr;
  standard_parameters_ls : expr;
  standard_parameters_lp : expr;
  standard_parameters_lead_acid_Cd : expr;
  standard_parameters_lead_acid_current_with_time : expr;
  standard_parameters_lead_acid_kappa : expr -> expr -> expr;
  standard_parameters_lead_acid_chi : expr -> expr;
  standard_parameters_lead_acid_j0n : expr -> expr;
  standard_parameters_lead_acid_j0p : expr -> expr;
  standard_parameters_lead_acid_dUPbdc : expr -> expr;
  standard_parameters_lead_acid_dUPbO2dc : expr -> expr
}.

(** ** The construction monad: the model being built, the steps taken so
    far, and an exception or a value. *)
Definition M (A : Type) : Type := BaseModel -> list step * res (A * BaseModel).

Definition ret {A : Type} (a : A) : M A := fun self => ([], Returned (a, self)).

Definition bind {A B : Type} (m : M A) (k : A -> M B) : M B :=
  fun self =>
    match m self with
    | (t1, Raises e) => (t1, Raises e)
    | (t1, Returned (a, self')) =>
        let '(t2, r) := k a self' in (t1 ++ t2, r)
    end.

#[local] Instance M_ret : MRet M := @ret.
#[local] Instance M_bind : MBind M := fun A B k m => bind m k.

(** A pure computation that may raise. *)
Definition lift {A : Type} (r : res A) : M A :=
  fun self => ([], match r with Returned a => Returned (a, self) | Raises e => Raises e end).

(** A call into the framework, recorded as a step. *)
Definition call {A : Type} (s : step) (r : res A) : M A :=
  fun self => ([s], match r with Returned a => Returned (a, self) | Raises e => Raises e end).

(** A step that replaces the model's state. *)
Definition modify (s : step) (f : BaseModel -> res BaseModel) : M unit :=
  fun self => ([s], match f self with Returned self' => Returned (tt, self') | Raises e => Raises e end).

(** [self.variables[k]] *)
Definition self_variables (k : string) : M expr :=
  fun self => ([], match getitem (variables self) k with
                   | Returned v => Returned (v, self)
                   | Raises e => Raises e
                   end).

Variable fw : Framework.

(** Modelled from the spec: [BaseModel.update], which is not in this
    file.  It merges the variable dictionary of each submodel, in
    argument order, into the model's own (an entry of a submodel
    replaces an entry of the same name); what it does to the rest of the
    model is left to the framework. *)
Definition update1 (self sub : BaseModel) : res BaseModel :=
  match BaseModel_update_rest fw self sub with
  | Raises e => Raises e
  | Returned (d, r) =>
      Returned {| variables := variables sub ∪ variables self;
                  default_parameter_values := d;
                  rest := r |}
  end.

Fixpoint update (self : BaseModel) (submodels : list BaseModel) : res BaseModel :=
  match submodels with
  | [] => Returned self
  | sub :: more =>
      match update1 self sub with
      | Raises e => Raises e
      | Returned self' => update self' more
      end
  end.

(** ** The derived quantities (source lines 68 to 124), one definition
    per local name of the constructor. *)
Section Derived.

(* leading-order variables and the composite concentration *)
Variables (c0 eps_0n eps_0s eps_0p eta_0n eta_0p Phi0 V0 c : expr).

(* Independent variables *)
Definition xn : expr := SpatialVariable "x" ["negative electrode"].
Definition xs : expr := SpatialVariable "x" ["separator"].
Definition xp : expr := SpatialVariable "x" ["positive electrode"].

(* Parameters *)
Definition ln : expr := standard_parameters_ln fw.
Definition ls : expr := standard_parameters_ls fw.
Definition lp : expr := standard_parameters_lp fw.
Definition Cd : expr := standard_parameters_lead_acid_Cd fw.
(* Functions *)
Definition icell : expr := standard_parameters_lead_acid_current_with_time fw.
Definition kappa_0n : expr := standard_parameters_lead_acid_kappa fw c0 eps_0n.
Definition kappa_0s : expr := standard_parameters_lead_acid_kappa fw c0 eps_0s.
Definition kappa_0p : expr := standard_parameters_lead_acid_kappa fw c0 eps_0p.
Definition chi0 : expr := standard_parameters_lead_acid_chi fw c0.
Definition j0_0n : expr := standard_parameters_lead_acid_j0n fw c0.
Definition j0_0p : expr := standard_parameters_lead_acid_j0p fw c0.
Definition j0_1n : expr := Num 1.
Definition j0_1p : expr := Num 1.
Definition dUPbdc : expr -> expr := standard_parameters_lead_acid_dUPbdc fw.
Definition dUPbO2dc : expr -> expr := standard_parameters_lead_acid_dUPbO2dc fw.

(* First-order concentration (c = c0 + Cd * c1) *)
Definition c1 : expr := ((c - c0) / Cd)%E.

(* Potential *)
Definition cbar_1n : expr := (Integral c1 xn / ln)%E.
Definition j0bar_1n : expr := (Integral j0_1n xn / ln)%E.
Definition An : expr :=
  (j0bar_1n * Function np_tanh eta_0n / j0_0n
   - dUPbdc c0 * cbar_1n
   - chi0 / c0 * cbar_1n
   + icell * ln / (Num 6 * kappa_0n))%E.

Definition Phi_1n : expr := (- icell * xn ^ Num 2 / (Num 2 * ln * kappa_0n))%E.
Definition Phi_1s : expr := (- icell * ((xs - ln) / kappa_0s + ln / (Num 2 * kappa_0n)))%E.
Definition Phi_1p : expr :=
  (- icell * (
     ln / (Num 2 * kappa_0n)
     + ls / (kappa_0s)
     + (lp ^ Num 2 - (Num 1 - xp) ^ Num 2) / (Num 2 * lp * kappa_0p)
   ))%E.
Definition Phi1 : expr :=
  (chi0 / c0 * c1 + Concatenation [Phi_1n; Phi_1s; Phi_1p] + An)%E.

(* Voltage *)
Definition cbar_1p : expr := (Integral c1 xp / lp)%E.
Definition Phibar_1p : expr := (Integral Phi1 xp / lp)%E.
Definition j0bar_1p : expr := (Integral j0_1p xp / lp)%E.
Definition V1 : expr :=
  (Phibar_1p
   + dUPbO2dc c0 * cbar_1p
   - j0bar_1p * Function np_tanh eta_0p / j0_0p)%E.

(* Variables *)
Definition new_variables : gmap string expr :=
  {[ "c" := c; "Phi" := (Phi0 + Cd * Phi1)%E; "V" := (V0 + Cd * V1)%E ]}.

End Derived.

(** ** The constructor *)
Definition __init__ : M unit :=
  modify S_BaseModel_init (BaseModel_init fw) ;;
  (* Get leading-order model *)
  loqs_model ← call S_LOQS (lead_acid_LOQS fw) ;
  (* Get model for the concentration *)
  j ← call S_homogeneous_reaction (interface_homogeneous_reaction fw) ;
  conc_model ← call S_StefanMaxwellDiffusionWithPorosity
                 (electrolyte_StefanMaxwellDiffusionWithPorosity fw j) ;
  (* Update own model with submodels *)
  modify S_update (fun self => update self [loqs_model; conc_model]) ;;
  (* Extract leading-order variables *)
  c0 ← self_variables "c0" ;
  eps0 ← self_variables "eps0" ;
  kids ← lift (children eps0) ;
  '(eps_0n, eps_0s, eps_0p) ← lift (unpack3 kids) ;
  eta_0n ← self_variables "eta_0n" ;
  eta_0p ← self_variables "eta_0p" ;
  Phi0 ← self_variables "Phi0" ;
  V0 ← self_variables "V0" ;
  (* Extract composite variables *)
  c ← self_variables "c" ;
  (* Variables *)
  modify S_set_variables (fun self =>
    Returned {| variables :=
                  new_variables c0 eps_0n eps_0s eps_0p eta_0n eta_0p Phi0 V0 c;
                default_parameter_values := default_parameter_values self;
                rest := rest self |}) ;;
  (* Overwrite default parameter values *)
  pv ← call S_ParameterValues
         (ParameterValues fw "input/parameters/lead-acid/default.csv"
                          {[ "current scale" := 1 ]}) ;
  modify S_set_default_parameter_values (fun self =>
    Returned {| variables := variables self;
                default_parameter_values := Some pv;
                rest := rest self |}).

(** ** Vocabulary for the statements *)

(** The model as it stands after source line 55: the base class is
    initialised and the two submodels are merged in. *)
Definition assembled (self loqs_model conc_model merged : BaseModel) : Prop :=
  exists base j,
    BaseModel_init fw self = Returned base /\
    lead_acid_LOQS fw = Returned loqs_model /\
    interface_homogeneous_reaction fw = Returned j /\
    electrolyte_StefanMaxwellDiffusionWithPorosity fw j = Returned conc_model /\
    update base [loqs_model; conc_model] = Returned merged.

(** The values the constructor reads from the merged mapping (source
    lines 58 to 66). *)
Definition extracted (merged : BaseModel)
    (c0 eps_0n eps_0s eps_0p eta_0n eta_0p Phi0 V0 c : expr) : Prop :=
  exists eps0,
    variables merged !! "c0" = Some c0 /\
    variables merged !! "eps0" = Some eps0 /\
    children eps0 = Returned [eps_0n; eps_0s; eps_0p] /\
    variables merged !! "eta_0n" = Some eta_0n /\
    variables merged !! "eta_0p" = Some eta_0p /\
    variables merged !! "Phi0" = Some Phi0 /\
    variables merged !! "V0" = Some V0 /\
    variables merged !! "c" = Some c.

(** The construction started on [self] returns with the model [m]. *)
Definition constructs (self m : BaseModel) : Prop :=
  snd (__init__ self) = Returned (tt, m).

(** The first fault of a construction started on [self]: the exception
    raised by the first step that does not return. *)
Inductive fault (self : BaseModel) : exn -> Prop :=
| fault_BaseModel_init e :
    BaseModel_init fw self = Raises e -> fault self e
| fault_LOQS base e :
    BaseModel_init fw self = Returned base ->
    lead_acid_LOQS fw = Raises e -> fault self e
| fault_homogeneous_reaction base loqs_model e :
    BaseModel_init fw self = Returned base ->
    lead_acid_LOQS fw = Returned loqs_model ->
    interface_homogeneous_reaction fw = Raises e -> fault self e
| fault_StefanMaxwell base loqs_model j e :
    BaseModel_init fw self = Returned base ->
    lead_acid_LOQS fw = Returned loqs_model ->
    interface_homogeneous_reaction fw = Returned j ->
    electrolyte_StefanMaxwellDiffusionWithPorosity fw j = Raises e -> fault self e
| fault_update base loqs_model j conc_model e :
    BaseModel_init fw self = Returned base ->
    lead_acid_LOQS fw = Returned loqs_model ->
    interface_homogeneous_reaction fw = Returned j ->
    electrolyte_StefanMaxwellDiffusionWithPorosity fw j = Returned conc_model ->
    update base [loqs_model; conc_model] = Raises e -> fault self e
| fault_missing_key loqs_model conc_model merged before k after :
    assembled self loqs_model conc_model merged ->
    ["c0"; "eps0"; "eta_0n"; "eta_0p"; "Phi0"; "V0"; "c"] = before ++ k :: after ->
    (forall k', k' ∈ before -> is_Some (variables merged !! k')) ->
    (forall eps0, "eps0" ∈ before -> variables merged !! "eps0" = Some eps0 ->
                  exists a b d, children eps0 = Returned [a; b; d]) ->
    variables merged !! k = None -> fault self (KeyError k)
| fault_children loqs_model conc_model merged eps0 e :
    assembled self loqs_model conc_model merged ->
    is_Some (variables merged !! "c0") ->
    variables merged !! "eps0" = Some eps0 ->
    children eps0 = Raises e -> fault self e
| fault_unpack loqs_model conc_model merged eps0 kids :
    assembled self loqs_model conc_model merged ->
    is_Some (variables merged !! "c0") ->
    variables merged !! "eps0" = Some eps0 ->
    children eps0 = Returned kids ->
    length kids <> 3%nat -> fault self ValueError
| fault_ParameterValues loqs_model conc_model merged
    c0 eps_0n eps_0s eps_0p eta_0n eta_0p Phi0 V0 c e :
    assembled self loqs_model conc_model merged ->
    extracted merged c0 eps_0n eps_0s eps_0p eta_0n eta_0p Phi0 V0 c ->
    ParameterValues fw "input/parameters/lead-acid/default.csv"
                    {[ "current scale" := 1 ]} = Raises e -> fault self e.



End Model.

Arguments BaseModel : clear implicits.
Arguments Framework : clear implicits.

(** The steps of a construction that runs to its end. *)
Definition construction_steps : list step :=
  [S_BaseModel_init; S_LOQS; S_homogeneous_reaction;
   S_StefanMaxwellDiffusionWithPorosity; S_update; S_set_variables;
   S_ParameterValues; S_set_default_parameter_values].

(** ** Exact arithmetic reading of an expression

    The arithmetic nodes are read over the rationals; every other node is
    an atom, valued by [rho]. *)
Fixpoint eval (rho : expr -> Qc) (e : expr) : Qc :=
  match e with
  | Num n => Q2Qc (inject_Z n)
  | Negate a => (- eval rho a)%Qc
  | Addition a b => (eval rho a + eval rho b)%Qc
  | Subtraction a b => (eval rho a - eval rho b)%Qc
  | Multiplication a b => (eval rho a * eval rho b)%Qc
  | Division a b => (eval rho a / eval rho b)%Qc
  | _ => rho e
  end.

(** ** The formulas as the specification writes them

    Each is spelled out node by node, reading the specification's text with
    Python's precedences; the arguments are the quantities the text names. *)

(** [f] integrated over [x], divided by [l]. *)
Definition stated_average (f x l : expr) : expr :=
  Division (Integral f x) l.

(** [Phibar_1p + dUPbO2dc(c0) * cbar_1p - j0bar_1p * tanh(eta_0p) / j0_0p] *)
Definition stated_V1 (Phibar_1p dUPbO2dc_c0 cbar_1p j0bar_1p eta_0p j0_0p : expr) : expr :=
  Subtraction
    (Addition Phibar_1p (Multiplication dUPbO2dc_c0 cbar_1p))
    (Division (Multiplication j0bar_1p (Function np_tanh eta_0p)) j0_0p).

(** [-icell * xn^2 / (2 * ln * kappa_0n)] *)
Definition stated_Phi_1n (icell xn ln kappa_0n : expr) : expr :=
  Division
    (Multiplication (Negate icell) (Power xn (Num 2)))
    (Multiplication (Multiplication (Num 2) ln) kappa_0n).

(** [-icell * ((xs - ln) / kappa_0s + ln / (2 * kappa_0n))] *)
Definition stated_Phi_1s (icell xs ln kappa_0s kappa_0n : expr) : expr :=
  Multiplication
    (Negate icell)
    (Addition
       (Division (Subtraction xs ln) kappa_0s)
       (Division ln (Multiplication (Num 2) kappa_0n))).

(** [-icell * (ln / (2 * kappa_0n) + ls / kappa_0s
               + (lp^2 - (1 - xp)^2) / (2 * lp * kappa_0p))] *)
Definition stated_Phi_1p (icell xp ln ls lp kappa_0n kappa_0s kappa_0p : expr) : expr :=
  Multiplication
    (Negate icell)
    (Addition
       (Addition
          (Division ln (Multiplication (Num 2) kappa_0n))
          (Division ls kappa_0s))
       (Division
          (Subtraction (Power lp (Num 2)) (Power (Subtraction (Num 1) xp) (Num 2)))
          (Multiplication (Multiplication (Num 2) lp) kappa_0p))).

(** [j0bar_1n * tanh(eta_0n) / j0_0n - dUPbdc(c0) * cbar_1n
     - chi0 / c0 * cbar_1n + icell * ln / (6 * kappa_0n)] *)
Definition stated_An
    (j0bar_1n eta_0n j0_0n dUPbdc_c0 cbar_1n chi0 c0 icell ln kappa_0n : expr) : expr :=
  Addition
    (Subtraction
       (Subtraction
          (Division (Multiplication j0bar_1n (Function np_tanh eta_0n)) j0_0n)
          (Multiplication dUPbdc_c0 cbar_1n))
       (Multiplication (Division chi0 c0) cbar_1n))
    (Division (Multiplication icell ln) (Multiplication (Num 6) kappa_0n)).

(** [chi0 / c0 * c1 + Concatenation(Phi_1n, Phi_1s, Phi_1p) + An] *)
Definition stated_Phi1 (chi0 c0 c1 Phi_1n Phi_1s Phi_1p An : expr) : expr :=
  Addition
    (Addition
       (Multiplication (Division chi0 c0) c1)
       (Concatenation [Phi_1n; Phi_1s; Phi_1p]))
    An.

(** [(c - c0) / Cd] *)
Definition stated_c1 (c c0 Cd : expr) : expr :=
  Division (Subtraction c c0) Cd.

(** ** Reading the potentials at a point

    As [eval], with a power whose exponent is a non-negative numeric
    literal read as repeated multiplication; the spatial variables are
    atoms, so [rho] fixes the point at which an expression is read. *)
Fixpoint value (rho : expr -> Qc) (e : expr) : Qc :=
  match e with
  | Num n => Q2Qc (inject_Z n)
  | Negate a => (- value rho a)%Qc
  | Addition a b => (value rho a + value rho b)%Qc
  | Subtraction a b => (value rho a - value rho b)%Qc
  | Multiplication a b => (value rho a * value rho b)%Qc
  | Division a b => (value rho a / value rho b)%Qc
  | Power a (Num n) =>
      if (0 <=? n)%Z then Qcpower (value rho a) (Z.to_nat n) else rho e
  | _ => rho e
  end.

(** Two frameworks that supply the same standard parameters. *)
Definition same_parameters {PV Rest : Type} (fw fw' : Framework PV Rest) : Prop :=
  standard_parameters_ln fw = standard_parameters_ln fw' /\
  standard_parameters_ls fw = standard_parameters_ls fw' /\
  standard_parameters_lp fw = standard_parameters_lp fw' /\
  standard_parameters_lead_acid_Cd fw = standard_parameters_lead_acid_Cd fw' /\
  standard_parameters_lead_acid_current_with_time fw
  = standard_parameters_lead_acid_current_with_time fw' /\
  standard_parameters_lead_acid_kappa fw = standard_parameters_lead_acid_kappa fw' /\
  standard_parameters_lead_acid_chi fw = standard_parameters_lead_acid_chi fw' /\
  standard_parameters_lead_acid_j0n fw = standard_parameters_lead_acid_j0n fw' /\
  standard_parameters_lead_acid_j0p fw = standard_parameters_lead_acid_j0p fw' /\
  standard_parameters_lead_acid_dUPbdc fw = standard_parameters_lead_acid_dUPbdc fw' /\
  standard_parameters_lead_acid_dUPbO2dc fw = standard_parameters_lead_acid_dUPbO2dc fw'.

(** The keys the constructor reads, in the order it reads them. *)
Definition keys_read : list string :=
  ["c0"; "eps0"; "eta_0n"; "eta_0p"; "Phi0"; "V0"; "c"].

(** The steps up to and including [update]. *)
Definition assembly_steps : list step :=
  [S_BaseModel_init; S_LOQS; S_homogeneous_reaction;
   S_StefanMaxwellDiffusionWithPorosity; S_update].

(** ** Maps of expressions that respect the nodes

    [h] goes through every node the constructor builds and leaves numeric
    literals and spatial variables alone; on framework symbols it is free. *)
Definition node_homomorphism (h : expr -> expr) : Prop :=
  (forall n, h (Num n) = Num n) /\
  (forall name domain, h (SpatialVariable name domain) = SpatialVariable name domain) /\
  (forall a, h (Negate a) = Negate (h a)) /\
  (forall a b, h (Addition a b) = Addition (h a) (h b)) /\
  (forall a b, h (Subtraction a b) = Subtraction (h a) (h b)) /\
  (forall a b, h (Multiplication a b) = Multiplication (h a) (h b)) /\
  (forall a b, h (Division a b) = Division (h a) (h b)) /\
  (forall a b, h (Power a b) = Power (h a) (h b)) /\
  (forall a x, h (Integral a x) = Integral (h a) (h x)) /\
  (forall f a, h (Function f a) = Function f (h a)) /\
  (forall kids, h (Concatenation kids) = Concatenation (map h kids)).

(** The standard parameters of [fw'] are the images under [h] of those of
    [fw]. *)
Definition parameters_related {PV Rest : Type}
    (h : expr -> expr) (fw fw' : Framework PV Rest) : Prop :=
  standard_parameters_ln fw' = h (standard_parameters_ln fw) /\
  standard_parameters_ls fw' = h (standard_parameters_ls fw) /\
  standard_parameters_lp fw' = h (standard_parameters_lp fw) /\
  standard_parameters_lead_acid_Cd fw' = h (standard_parameters_lead_acid_Cd fw) /\
  standard_parameters_lead_acid_current_with_time fw'
  = h (standard_parameters_lead_acid_current_with_time fw) /\
  (forall a b, standard_parameters_lead_acid_kappa fw' (h a) (h b)
               = h (standard_parameters_lead_acid_kappa fw a b)) /\
  (forall a, standard_parameters_lead_acid_chi fw' (h a)
             = h (standard_parameters_lead_acid_chi fw a)) /\
  (forall a, standard_parameters_lead_acid_j0n fw' (h a)
             = h (standard_parameters_lead_acid_j0n fw a)) /\
  (forall a, standard_parameters_lead_acid_j0p fw' (h a)
             = h (standard_parameters_lead_acid_j0p fw a)) /\
  (forall a, standard_parameters_lead_acid_dUPbdc fw' (h a)
             = h (standard_parameters_lead_acid_dUPbdc fw a)) /\
  (forall a, standard_parameters_lead_acid_dUPbO2dc fw' (h a)
             = h (standard_parameters_lead_acid_dUPbO2dc fw a)).

(** Substitution for framework symbols without children: [s name] is put
    in place of the symbol [name]. *)
Fixpoint subst (s : string -> option expr) (e : expr) : expr :=
  match e with
  | Num n => Num n
  | Symbol name kids =>
      match kids with
      | [] => match s name with
              | Some r => r
              | None => Symbol name []
              end
      | _ => Symbol name (map (subst s) kids)
      end
  | SpatialVariable name domain => SpatialVariable name domain
  | Negate a => Negate (subst s a)
  | Addition a b => Addition (subst s a) (subst s b)
  | Subtraction a b => Subtraction (subst s a) (subst s b)
  | Multiplication a b => Multiplication (subst s a) (subst s b)
  | Division a b => Division (subst s a) (subst s b)
  | Power a b => Power (subst s a) (subst s b)
  | Integral a x => Integral (subst s a) (subst s x)
  | Function f a => Function f (subst s a)
  | Concatenation kids => Concatenation (map (subst s) kids)
  end.

(** ** A small framework to run the constructor on *)
Module Demo.

Definition table : Type := gmap string Z.

Definition var (name : string) : expr := Symbol name [].

Definition loqs : BaseModel table nat :=
  {| variables :=
       {[ "c0" := var "c0";
          "eps0" := Concatenation [var "eps_n"; var "eps_s"; var "eps_p"];
          "eta_0n" := var "eta_0n";
          "eta_0p" := var "eta_0p";
          "Phi0" := var "Phi0";
          "V0" := var "V0" ]};
     default_parameter_values := Some {[ "current scale" := 7 ]};
     rest := 1%nat |}.

Definition conc (j : expr) : BaseModel table nat :=
  {| variables := {[ "c" := Symbol "c" [j] ]};
     default_parameter_values := Some {[ "current scale" := 9 ]};
     rest := 2%nat |}.

Definition currents : expr := Concatenation [var "j_n"; Num 0; var "j_p"].

Definition csv : table := {[ "current scale" := 100; "temperature" := 298 ]}.

Definition load (path : string) (overrides : table) : res table :=
  if String.eqb path "input/parameters/lead-acid/default.csv"
  then Returned (overrides ∪ csv)
  else Raises (Raised "FileNotFoundError").

Definition framework (loqs_result : res (BaseModel table nat))
    (load_result : string -> table -> res table) : Framework table nat :=
  {| BaseModel_init := fun self =>
       Returned {| variables := ∅;
                   default_parameter_values := None;
                   rest := S (rest self) |};
     BaseModel_update_rest := fun self sub =>
       Returned (default_parameter_values sub, (rest self + rest sub)%nat);
     lead_acid_LOQS := loqs_result;
     interface_homogeneous_reaction := Returned currents;
     electrolyte_StefanMaxwellDiffusionWithPorosity := fun j => Returned (conc j);
     ParameterValues := load_result;
     standard_parameters_ln := var "ln";
     standard_parameters_ls := var "ls";
     standard_parameters_lp := var "lp";
     standard_parameters_lead_acid_Cd := var "Cd";
     standard_parameters_lead_acid_current_with_time := var "icell";
     standard_parameters_lead_acid_kappa := fun c eps => Symbol "kappa" [c; eps];
     standard_parameters_lead_acid_chi := fun c => Symbol "chi" [c];
     standard_parameters_lead_acid_j0n := fun c => Symbol "j0n" [c];
     standard_parameters_lead_acid_j0p := fun c => Symbol "j0p" [c];
     standard_parameters_lead_acid_dUPbdc := fun c => Symbol "dUPbdc" [c];
     standard_parameters_lead_acid_dUPbO2dc := fun c => Symbol "dUPbO2dc" [c] |}.

(** The framework behaving well. *)
Definition good : Framework table nat := framework (Returned loqs) load.

(** A leading-order model that does not define [c0]. *)
Definition loqs_without_c0 : BaseModel table nat :=
  {| variables := delete "c0" (variables loqs);
     default_parameter_values := default_parameter_values loqs;
     rest := rest loqs |}.
Definition no_c0 : Framework table nat := framework (Returned loqs_without_c0) load.

(** A parameter file that does not parse. *)
Definition bad_csv : Framework table nat :=
  framework (Returned loqs) (fun _ _ => Raises (Raised "malformed CSV")).

(** A freshly allocated object. *)
Definition fresh : BaseModel table nat :=
  {| variables := ∅; default_parameter_values := None; rest := 0%nat |}.

(** An object with the same bookkeeping but other contents. *)
Definition stale : BaseModel table nat :=
  {| variables := {[ "junk" := Num 0 ]};
     default_parameter_values := Some csv;
     rest := 0%nat |}.

(** The merged model under [good], as left by [update] on a fresh object. *)
Definition merged : BaseModel table nat :=
  {| variables := variables (conc currents) ∪ variables loqs;
     default_parameter_values := Some {[ "current scale" := 9 ]};
     rest := 4%nat |}.

(** The model the constructor builds under [good] from a fresh object,
    and the one it builds when run once more on that model. *)
Definition built_with (r : nat) : BaseModel table nat :=
  {| variables :=
       new_variables good (var "c0") (var "eps_n") (var "eps_s") (var "eps_p")
         (var "eta_0n") (var "eta_0p") (var "Phi0") (var "V0")
         (Symbol "c" [currents]);
     default_parameter_values := Some {[ "current scale" := 1; "temperature" := 298 ]};
     rest := r |}.
Definition built : BaseModel table nat := built_with 4.
Definition rebuilt : BaseModel table nat := built_with 8.

(** Values for the symbols of the concentration: [Cd = 2], [c0 = 3],
    [c = 5], anything else [0]. *)
Definition rho (e : expr) : Qc :=
  match e with
  | Symbol name [] =>
      if String.eqb name "Cd" then Q2Qc (inject_Z 2)
      else if String.eqb name "c0" then Q2Qc (inject_Z 3)
      else if String.eqb name "c" then Q2Qc (inject_Z 5)
      else Q2Qc (inject_Z 0)
  | _ => Q2Qc (inject_Z 0)
  end.

(** A leading-order model whose porosity has two parts only, and lacks
    the overpotentials. *)
Definition loqs_two_porosities : BaseModel table nat :=
  {| variables :=
       {[ "c0" := var "c0";
          "eps0" := Concatenation [var "eps_n"; var "eps_p"] ]};
     default_parameter_values := None;
     rest := 1%nat |}.
Definition two_porosities : Framework table nat :=
  framework (Returned loqs_two_porosities) load.
Definition merged_two_porosities : BaseModel table nat :=
  {| variables := variables (conc currents) ∪ variables loqs_two_porosities;
     default_parameter_values := Some {[ "current scale" := 9 ]};
     rest := 4%nat |}.

(** A leading-order model with one more variable, under a framework whose
    bookkeeping differs from [good]'s. *)
Definition loqs_and_more : BaseModel table nat :=
  {| variables := <[ "j0" := var "j0" ]> (variables loqs);
     default_parameter_values := None;
     rest := 10%nat |}.
Definition verbose : Framework table nat := framework (Returned loqs_and_more) load.
Definition merged_verbose : BaseModel table nat :=
  {| variables := variables (conc currents) ∪ variables loqs_and_more;
     default_parameter_values := Some {[ "current scale" := 9 ]};
     rest := 13%nat |}.
Definition built_verbose : BaseModel table nat := built_with 13.



(** The leading-order concentration given as a number: the substitution
    of [7] for the symbol [c0], and the framework whose leading-order
    model is the image of [loqs] under it. *)
Definition c0_is_seven (name : string) : option expr :=
  if String.eqb name "c0" then Some (Num 7) else None.
Definition loqs_numeric : BaseModel table nat :=
  {| variables := subst c0_is_seven <$> variables loqs;
     default_parameter_values := default_parameter_values loqs;
     rest := rest loqs |}.
Definition numeric : Framework table nat := framework (Returned loqs_numeric) load.
Definition merged_numeric : BaseModel table nat :=
  {| variables := variables (conc currents) ∪ variables loqs_numeric;
     default_parameter_values := Some {[ "current scale" := 9 ]};
     rest := 4%nat |}.
Definition built_numeric : BaseModel table nat :=
  {| variables :=
       new_variables numeric (Num 7) (var "eps_n") (var "eps_s") (var "eps_p")
         (var "eta_0n") (var "eta_0p") (var "Phi0") (var "V0")
         (Symbol "c" [currents]);
     default_parameter_values := Some {[ "current scale" := 1; "temperature" := 298 ]};
     rest := 4%nat |}.

(** A point of the cell: every spatial variable reads [x]; the lengths
    are [ln = 1/4], [ls = 1/4], [lp = 1/2]; every other atom reads [3]. *)
Definition quarter : Qc := Q2Qc (1 # 4).
Definition half : Qc := Q2Qc (1 # 2).
Definition at_point (x : Qc) (e : expr) : Qc :=
  match e with
  | SpatialVariable _ _ => x
  | Symbol name [] =>
      if String.eqb name "ln" then quarter
      else if String.eqb name "ls" then quarter
      else if String.eqb name "lp" then half
      else Q2Qc (inject_Z 3)
  | _ => Q2Qc (inject_Z 3)
  end.

End Demo.

(** * Properties *)

Lemma unpack3_returned {A : Type} (xs : list A) a b d :
  unpack3 xs = Returned (a, b, d) <-> xs = [a; b; d].
Proof.
  split.
  - destruct xs as [|x1 [|x2 [|x3 [|x4 xs]]]]; simpl; intros H; congruence.
  - intros ->. reflexivity.
Qed.

Lemma unpack3_raises {A : Type} (xs : list A) e :
  unpack3 xs = Raises e <-> e = ValueError /\ length xs <> 3%nat.
Proof.
  destruct xs as [|x1 [|x2 [|x3 [|x4 xs]]]]; simpl; split;
    try (intros [= <-]; split; [reflexivity | lia]);
    try (intros [-> _]; reflexivity);
    try discriminate.
  intros [_ H]. lia.
Qed.

Section Properties.

Context {PV Rest : Type} (fw : Framework PV Rest).

Implicit Types self m merged : BaseModel PV Rest.

(** Unfold the monadic plumbing of the constructor, keeping [update] and
    the derived expressions folded. *)
Ltac expose :=
  unfold constructs, __init__, mbind, M_bind, bind, modify, call, lift,
    self_variables, getitem.
Ltac crunch := cbn -[update new_variables unpack3 children].
(** Replay the constructor along the equations in the context. *)
Ltac replay :=
  expose; crunch;
  repeat match goal with
         | H : ?x = Returned _ |- context [?x] => rewrite H; crunch
         | H : ?x = Raises _ |- context [?x] => rewrite H; crunch
         | H : ?x = Some _ |- context [?x] => rewrite H; crunch
         | H : ?x = None |- context [?x] => rewrite H; crunch
         | |- context [unpack3 [?a; ?b; ?d]] =>
             change (unpack3 [a; b; d]) with (Returned (a, b, d)); crunch
         end.
(** Membership in a list written out. *)
Ltac split_elem H :=
  repeat (apply elem_of_cons in H as [H | H]; [try discriminate H; subst |]);
  try (apply elem_of_nil in H; destruct H).
(** Membership of a literal key in a literal list. *)
Ltac in_list := repeat first [apply list_elem_of_here | apply list_elem_of_further].
(** A run that stops where the named step raises. *)
Tactic Notation "stops_with" uconstr(lem) :=
  right; eexists _, _; split_and!;
  [eapply lem; eauto | reflexivity | by eexists].
(** A run that stops at a missing key, [before] being the keys read so far. *)
Ltac stops_missing before after :=
  right; eexists _, (KeyError _); split_and!;
  [ eapply (fault_missing_key fw _ _ _ _ before _ after);
    [ eassumption
    | reflexivity
    | let k := fresh "k" in let Hk := fresh "Hk" in
      intros k Hk; split_elem Hk; eauto
    | let e := fresh "e" in let Hin := fresh "Hin" in let He := fresh "He" in
      intros e Hin He; first [ by split_elem Hin | simplify_eq; eauto ]
    | assumption ]
  | reflexivity
  | by eexists ].

Lemma update_variables base loqs_model conc_model merged :
  update fw base [loqs_model; conc_model] = Returned merged ->
  variables merged = variables conc_model ∪ (variables loqs_model ∪ variables base).
Proof.
  simpl. unfold update1.
  destruct (BaseModel_update_rest fw base loqs_model) as [[d1 r1]|]; [|discriminate].
  simpl.
  destruct (BaseModel_update_rest fw _ conc_model) as [[d2 r2]|]; [|discriminate].
  intros [= <-]. reflexivity.
Qed.

(** Every run of the constructor either returns, having read the nine
    values and loaded the table, or stops at its first fault. *)
Lemma init_outcome self :
  (exists loqs_model conc_model merged c0 eps_0n eps_0s eps_0p eta_0n eta_0p Phi0 V0 c pv,
      assembled fw self loqs_model conc_model merged /\
      extracted merged c0 eps_0n eps_0s eps_0p eta_0n eta_0p Phi0 V0 c /\
      ParameterValues fw "input/parameters/lead-acid/default.csv"
                      {[ "current scale" := 1 ]} = Returned pv /\
      __init__ fw self =
        (construction_steps,
         Returned (tt, {| variables :=
                            new_variables fw c0 eps_0n eps_0s eps_0p eta_0n eta_0p Phi0 V0 c;
                          default_parameter_values := Some pv;
                          rest := rest merged |})))
  \/ (exists t e,
        fault fw self e /\
        __init__ fw self = (t, Raises e) /\
        t `prefix_of` construction_steps).
Proof.
  expose.
  destruct (BaseModel_init fw self) as [base|e] eqn:Hbase; crunch;
    [| stops_with fault_BaseModel_init].
  destruct (lead_acid_LOQS fw) as [loqs_model|e] eqn:Hloqs; crunch;
    [| stops_with fault_LOQS].
  destruct (interface_homogeneous_reaction fw) as [j|e] eqn:Hj; crunch;
    [| stops_with fault_homogeneous_reaction].
  destruct (electrolyte_StefanMaxwellDiffusionWithPorosity fw j)
    as [conc_model|e] eqn:Hconc; crunch;
    [| stops_with fault_StefanMaxwell].
  destruct (update fw base [loqs_model; conc_model]) as [merged|e] eqn:Hup; crunch;
    [| stops_with fault_update].
  assert (Hasm : assembled fw self loqs_model conc_model merged)
    by (exists base, j; auto).
  destruct (variables merged !! "c0") as [c0|] eqn:Hc0; crunch;
    [| stops_missing (@nil string)
         ["eps0"; "eta_0n"; "eta_0p"; "Phi0"; "V0"; "c"]%string].
  destruct (variables merged !! "eps0") as [eps0|] eqn:Heps0; crunch;
    [| stops_missing ["c0"]%string ["eta_0n"; "eta_0p"; "Phi0"; "V0"; "c"]%string].
  destruct (children eps0) as [kids|e] eqn:Hkids; crunch;
    [| stops_with fault_children].
  destruct (unpack3 kids) as [[[eps_0n eps_0s] eps_0p]|e] eqn:Hun; crunch;
    [| apply unpack3_raises in Hun as [-> Hlen]; stops_with fault_unpack].
  apply unpack3_returned in Hun as ->.
  destruct (variables merged !! "eta_0n") as [eta_0n|] eqn:Heta_0n; crunch;
    [| stops_missing ["c0"; "eps0"]%string ["eta_0p"; "Phi0"; "V0"; "c"]%string].
  destruct (variables merged !! "eta_0p") as [eta_0p|] eqn:Heta_0p; crunch;
    [| stops_missing ["c0"; "eps0"; "eta_0n"]%string ["Phi0"; "V0"; "c"]%string].
  destruct (variables merged !! "Phi0") as [Phi0|] eqn:HPhi0; crunch;
    [| stops_missing ["c0"; "eps0"; "eta_0n"; "eta_0p"]%string ["V0"; "c"]%string].
  destruct (variables merged !! "V0") as [V0|] eqn:HV0; crunch;
    [| stops_missing ["c0"; "eps0"; "eta_0n"; "eta_0p"; "Phi0"]%string ["c"]%string].
  destruct (variables merged !! "c") as [c|] eqn:Hc; crunch;
    [| stops_missing ["c0"; "eps0"; "eta_0n"; "eta_0p"; "Phi0"; "V0"]%string
         (@nil string)].
  assert (Hext : extracted merged c0 eps_0n eps_0s eps_0p eta_0n eta_0p Phi0 V0 c)
    by (exists eps0; auto 10).
  destruct (ParameterValues fw "input/parameters/lead-acid/default.csv"
              {[ "current scale" := 1 ]}) as [pv|e] eqn:Hpv; crunch;
    [| stops_with fault_ParameterValues].
  left. exists loqs_model, conc_model, merged, c0, eps_0n, eps_0s, eps_0p,
    eta_0n, eta_0p, Phi0, V0, c, pv.
  auto.
Qed.

Lemma init_returns_inv self m :
  constructs fw self m ->
  exists loqs_model conc_model merged c0 eps_0n eps_0s eps_0p eta_0n eta_0p Phi0 V0 c pv,
    assembled fw self loqs_model conc_model merged /\
    extracted merged c0 eps_0n eps_0s eps_0p eta_0n eta_0p Phi0 V0 c /\
    ParameterValues fw "input/parameters/lead-acid/default.csv"
                    {[ "current scale" := 1 ]} = Returned pv /\
    m = {| variables := new_variables fw c0 eps_0n eps_0s eps_0p eta_0n eta_0p Phi0 V0 c;
           default_parameter_values := Some pv;
           rest := rest merged |} /\
    fst (__init__ fw self) = construction_steps.
Proof.
  unfold constructs. intros Hm.
  destruct (init_outcome self)
    as [(lq & cm & mg & c0 & en & es & ep & tn & tp & P0 & V0 & c & pv & Ha & He & Hp & Hrun)
       |(t & e & _ & Hrun & _)];
    rewrite Hrun in Hm |- *; simpl in Hm; [|discriminate].
  injection Hm as <-.
  exists lq, cm, mg, c0, en, es, ep, tn, tp, P0, V0, c, pv. auto.
Qed.

(** C1: after the constructor returns, the entry "V" of the variables
    mapping is [V0 + Cd * V1], where
    [V1 = Phibar_1p + dUPbO2dc(c0) * cbar_1p - j0bar_1p * tanh(eta_0p) / j0_0p]
    and the barred quantities are the integrals of [Phi1], [c1] and
    [j0_1p = 1] over the positive-electrode variable, divided by [lp];
    [c0], [eta_0p] and [V0] are the entries read from the merged mapping. *)
Theorem V_is_V0_plus_Cd_V1 self m :
  constructs fw self m ->
  exists loqs_model conc_model merged c0 eps_0n eps_0s eps_0p eta_0n eta_0p Phi0 V0 c,
    assembled fw self loqs_model conc_model merged /\
    extracted merged c0 eps_0n eps_0s eps_0p eta_0n eta_0p Phi0 V0 c /\
    let xp := SpatialVariable "x" ["positive electrode"] in
    let lp := standard_parameters_lp fw in
    let Cd := standard_parameters_lead_acid_Cd fw in
    let Phibar_1p :=
      stated_average (Phi1 fw c0 eps_0n eps_0s eps_0p eta_0n c) xp lp in
    let cbar_1p := stated_average (c1 fw c0 c) xp lp in
    let j0bar_1p := stated_average (Num 1) xp lp in
    let V1 :=
      stated_V1 Phibar_1p (standard_parameters_lead_acid_dUPbO2dc fw c0) cbar_1p
                j0bar_1p eta_0p (standard_parameters_lead_acid_j0p fw c0) in
    variables m !! "V" = Some (Addition V0 (Multiplication Cd V1)).
Proof.
  intros Hm.
  destruct (init_returns_inv self m Hm)
    as (lq & cm & mg & c0 & en & es & ep & tn & tp & P0 & V0 & c & pv
        & Ha & He & _ & -> & _).
  exists lq, cm, mg, c0, en, es, ep, tn, tp, P0, V0, c.
  split; [exact Ha|]. split; [exact He|].
  cbv zeta. simpl variables. unfold new_variables.
  rewrite lookup_insert_ne by discriminate.
  rewrite lookup_insert_ne by discriminate.
  rewrite lookup_singleton_eq.
  reflexivity.
Qed.

(** C2: after the constructor returns, the entry "Phi" of the variables
    mapping is [Phi0 + Cd * Phi1], where
    [Phi1 = chi0 / c0 * c1 + Concatenation(Phi_1n, Phi_1s, Phi_1p) + An]
    and [Phi_1n], [Phi_1s], [Phi_1p] and [An] are the stated closed forms
    in [icell], the three spatial variables, the lengths and the
    leading-order conductivities. *)
Theorem Phi_is_Phi0_plus_Cd_Phi1 self m :
  constructs fw self m ->
  exists loqs_model conc_model merged c0 eps_0n eps_0s eps_0p eta_0n eta_0p Phi0 V0 c,
    assembled fw self loqs_model conc_model merged /\
    extracted merged c0 eps_0n eps_0s eps_0p eta_0n eta_0p Phi0 V0 c /\
    let xn := SpatialVariable "x" ["negative electrode"] in
    let xs := SpatialVariable "x" ["separator"] in
    let xp := SpatialVariable "x" ["positive electrode"] in
    let ln := standard_parameters_ln fw in
    let ls := standard_parameters_ls fw in
    let lp := standard_parameters_lp fw in
    let Cd := standard_parameters_lead_acid_Cd fw in
    let icell := standard_parameters_lead_acid_current_with_time fw in
    let kappa_0n := standard_parameters_lead_acid_kappa fw c0 eps_0n in
    let kappa_0s := standard_parameters_lead_acid_kappa fw c0 eps_0s in
    let kappa_0p := standard_parameters_lead_acid_kappa fw c0 eps_0p in
    let chi0 := standard_parameters_lead_acid_chi fw c0 in
    let j0_0n := standard_parameters_lead_acid_j0n fw c0 in
    let An :=
      stated_An (j0bar_1n fw) eta_0n j0_0n
                (standard_parameters_lead_acid_dUPbdc fw c0) (cbar_1n fw c0 c)
                chi0 c0 icell ln kappa_0n in
    let Phi1 :=
      stated_Phi1 chi0 c0 (c1 fw c0 c)
                  (stated_Phi_1n icell xn ln kappa_0n)
                  (stated_Phi_1s icell xs ln kappa_0s kappa_0n)
                  (stated_Phi_1p icell xp ln ls lp kappa_0n kappa_0s kappa_0p)
                  An in
    variables m !! "Phi" = Some (Addition Phi0 (Multiplication Cd Phi1)).
Proof.
  intros Hm.
  destruct (init_returns_inv self m Hm)
    as (lq & cm & mg & c0 & en & es & ep & tn & tp & P0 & V0 & c & pv
        & Ha & He & _ & -> & _).
  exists lq, cm, mg, c0, en, es, ep, tn, tp, P0, V0, c.
  split; [exact Ha|]. split; [exact He|].
  cbv zeta. simpl variables. unfold new_variables.
  rewrite lookup_insert_ne by discriminate.
  rewrite lookup_insert_eq.
  reflexivity.
Qed.

(** C3 (amended): a call of the constructor that returns has performed
    exactly these steps in order: the base-class initialiser, then (a)
    the two submodels are instantiated, the diffusion model on the result
    of [homogeneous_reaction()], (b) [update] merges their variable
    dictionaries into the model, (c) the derived quantities are computed
    from the merged mapping and assigned to [self.variables], (d) the
    default parameter set is loaded and stored.  The submodels'
    dictionaries are part of the model after (b); the assignment in (c)
    replaces them, so the returned model holds "c", "Phi" and "V" only. *)
Theorem construction_steps_in_order self m :
  constructs fw self m ->
  fst (__init__ fw self) =
    [S_BaseModel_init; S_LOQS; S_homogeneous_reaction;
     S_StefanMaxwellDiffusionWithPorosity; S_update; S_set_variables;
     S_ParameterValues; S_set_default_parameter_values] /\
  exists base loqs_model j conc_model merged
         c0 eps_0n eps_0s eps_0p eta_0n eta_0p Phi0 V0 c pv,
    BaseModel_init fw self = Returned base /\
    (* a *)
    lead_acid_LOQS fw = Returned loqs_model /\
    interface_homogeneous_reaction fw = Returned j /\
    electrolyte_StefanMaxwellDiffusionWithPorosity fw j = Returned conc_model /\
    (* b *)
    update fw base [loqs_model; conc_model] = Returned merged /\
    variables merged = variables conc_model ∪ (variables loqs_model ∪ variables base) /\
    (* c *)
    extracted merged c0 eps_0n eps_0s eps_0p eta_0n eta_0p Phi0 V0 c /\
    variables m = new_variables fw c0 eps_0n eps_0s eps_0p eta_0n eta_0p Phi0 V0 c /\
    dom (variables m) = ({[ "c"; "Phi"; "V" ]} : gset string) /\
    (* d *)
    ParameterValues fw "input/parameters/lead-acid/default.csv"
                    {[ "current scale" := 1 ]} = Returned pv /\
    default_parameter_values m = Some pv.
Proof.
  intros Hm.
  destruct (init_returns_inv self m Hm)
    as (lq & cm & mg & c0 & en & es & ep & tn & tp & P0 & V0 & c & pv
        & (base & j & Hb & Hl & Hj & Hc & Hu) & He & Hpv & -> & Hsteps).
  split; [exact Hsteps|].
  exists base, lq, j, cm, mg, c0, en, es, ep, tn, tp, P0, V0, c, pv.
  split_and!; try done.
  all: try (by apply update_variables).
  all: simpl; unfold new_variables;
    rewrite !dom_insert_L, dom_singleton_L; set_solver.
Qed.

(** C4: the constructor handles no error.  Whatever fault comes first
    during a construction (the base initialiser, a submodel constructor,
    [update] or the parameter loader raising, one of the keys "c0",
    "eps0", "eta_0n", "eta_0p", "Phi0", "V0", "c" missing from the merged
    mapping, or [eps0] not having three children), the constructor ends
    by raising that very exception. *)
Theorem faults_propagate self e :
  fault fw self e -> snd (__init__ fw self) = Raises e.
Proof.
  intros Hf.
  destruct Hf as
    [ e Hb | base e Hb Hl | base lq e Hb Hl Hj | base lq j e Hb Hl Hj Hc
    | base lq j cm e Hb Hl Hj Hc Hu
    | lq cm mg before k after (base & j & Hb & Hl & Hj & Hc & Hu) Hlist Hpres Hkids Hk
    | lq cm mg eps0 e (base & j & Hb & Hl & Hj & Hc & Hu) [c0 Hc0] Heps0 Hkids
    | lq cm mg eps0 kids (base & j & Hb & Hl & Hj & Hc & Hu) [c0 Hc0] Heps0 Hkids Hlen
    | lq cm mg c0 en es ep tn tp P0 V0 c e (base & j & Hb & Hl & Hj & Hc & Hu)
        (eps0 & Hc0 & Heps0 & Hkids & Htn & Htp & HP0 & HV0 & Hcc) Hpv ];
    try (replay; reflexivity).
  - (* a missing key: find which one *)
    repeat (destruct before as [|? before]; simpl in Hlist;
            [| let Hhd := fresh "Hhd" in
               injection Hlist as Hhd Hlist; symmetry in Hhd; subst]);
      try (destruct before; discriminate Hlist);
      (let Hhd := fresh "Hhd" in let Htl := fresh "Htl" in
       injection Hlist as Hhd Htl; symmetry in Hhd, Htl; subst);
      repeat match goal with
             | H : forall k', k' ∈ _ -> is_Some _ |- _ =>
                 match type of H with
                 | context [?key :: _] =>
                     lazymatch goal with
                     | _ : variables mg !! key = Some _ |- _ => fail
                     | _ => let v := fresh "v" in let Hv := fresh "Hv" in
                            destruct (H key ltac:(in_list)) as [v Hv]
                     end
                 end
             end;
      try match goal with
          | H : variables mg !! "eps0" = Some ?x |- _ =>
              destruct (Hkids x ltac:(in_list) H) as (? & ? & ? & ?)
          end;
      replay; reflexivity.
  - (* unpacking fails *)
    replay. destruct (unpack3 kids) as [[[a b] d]|e] eqn:Hun.
    + apply unpack3_returned in Hun as ->. simpl in Hlen. lia.
    + apply unpack3_raises in Hun as [-> _]. reflexivity.
Qed.

(** The converse: an exception leaving the constructor is the first
    fault of the construction. *)
Lemma raises_is_fault self e :
  snd (__init__ fw self) = Raises e -> fault fw self e.
Proof.
  intros Hr.
  destruct (init_outcome self)
    as [(lq & cm & mg & c0 & en & es & ep & tn & tp & P0 & V0 & c & pv & _ & _ & _ & Hrun)
       |(t & e' & Hf & Hrun & _)];
    rewrite Hrun in Hr; simpl in Hr; [discriminate|].
  by injection Hr as <-.
Qed.


(** C7: after the constructor returns, [default_parameter_values] is what
    the loader gives for "input/parameters/lead-acid/default.csv" with the
    override "current scale" = 1, whatever default parameter set the
    merged model carried. *)
Theorem default_parameter_values_overwritten self m :
  constructs fw self m ->
  exists loqs_model conc_model merged pv,
    assembled fw self loqs_model conc_model merged /\
    ParameterValues fw "input/parameters/lead-acid/default.csv"
                    {[ "current scale" := 1 ]} = Returned pv /\
    default_parameter_values m = Some pv.
Proof.
  intros Hm.
  destruct (init_returns_inv self m Hm)
    as (lq & cm & mg & c0 & en & es & ep & tn & tp & P0 & V0 & c & pv
        & Ha & _ & Hpv & -> & _).
  by exists lq, cm, mg, pv.
Qed.

(** C8: after the constructor returns, the variables mapping has exactly
    the keys "c", "Phi" and "V"; the keys "c0", "eps0", "eta_0n",
    "eta_0p", "Phi0" and "V0", all present in the merged mapping, are
    absent from it, as is every other key. *)
Theorem variables_keys_exactly_c_Phi_V self m :
  constructs fw self m ->
  dom (variables m) = ({[ "c"; "Phi"; "V" ]} : gset string) /\
  (forall k, k ∉ ["c"; "Phi"; "V"] -> variables m !! k = None) /\
  exists loqs_model conc_model merged,
    assembled fw self loqs_model conc_model merged /\
    forall k, k ∈ ["c0"; "eps0"; "eta_0n"; "eta_0p"; "Phi0"; "V0"] ->
              is_Some (variables merged !! k) /\ variables m !! k = None.
Proof.
  intros Hm.
  destruct (init_returns_inv self m Hm)
    as (lq & cm & mg & c0 & en & es & ep & tn & tp & P0 & V0 & c & pv
        & Ha & (eps0 & Hc0 & Heps0 & Hkids & Htn & Htp & HP0 & HV0 & Hcc) & _ & -> & _).
  assert (Hdom : dom (new_variables fw c0 en es ep tn tp P0 V0 c)
                 = ({[ "c"; "Phi"; "V" ]} : gset string)).
  { unfold new_variables. rewrite !dom_insert_L, dom_singleton_L. set_solver. }
  assert (Hother : forall k, k ∉ ["c"; "Phi"; "V"] ->
                             new_variables fw c0 en es ep tn tp P0 V0 c !! k = None).
  { intros k Hk. apply not_elem_of_dom.
    rewrite Hdom, !elem_of_union, !elem_of_singleton.
    intros [[-> | ->] | ->]; apply Hk; in_list. }
  simpl. split_and!; [exact Hdom | exact Hother |].
  exists lq, cm, mg. split; [exact Ha|].
  intros k Hk. split.
  - split_elem Hk; eauto.
  - apply Hother. intros Hin. split_elem Hk; split_elem Hin.
Qed.

(** C9: the first-order concentration is [c1 = (c - c0) / Cd]; read
    over the rationals, [c0 + Cd * c1] has the value of [c] whenever
    [Cd] is not zero. *)
Theorem first_order_concentration_round_trip (c0 c : expr) (rho : expr -> Qc) :
  eval rho (standard_parameters_lead_acid_Cd fw) <> 0%Qc ->
  c1 fw c0 c = stated_c1 c c0 (standard_parameters_lead_acid_Cd fw) /\
  eval rho (Addition c0 (Multiplication (standard_parameters_lead_acid_Cd fw)
                                        (c1 fw c0 c)))
  = eval rho c.
Proof.
  intros HCd. split; [reflexivity|].
  unfold c1, Cd. simpl.
  field. exact HCd.
Qed.

(** C10: the entry "c" of the final variables mapping is the expression
    read under "c" from the merged mapping, unchanged. *)
Theorem c_passed_through_unchanged self m :
  constructs fw self m ->
  exists loqs_model conc_model merged c,
    assembled fw self loqs_model conc_model merged /\
    variables merged !! "c" = Some c /\
    variables m !! "c" = Some c.
Proof.
  intros Hm.
  destruct (init_returns_inv self m Hm)
    as (lq & cm & mg & c0 & en & es & ep & tn & tp & P0 & V0 & c & pv
        & Ha & (eps0 & Hc0 & Heps0 & Hkids & Htn & Htp & HP0 & HV0 & Hcc) & _ & -> & _).
  exists lq, cm, mg, c. split_and!; [exact Ha | exact Hcc |].
  simpl. unfold new_variables. apply lookup_insert_eq.
Qed.

(** ** Further properties of the constructor *)

(** X2: [eps0] must have exactly three children.  With "c0" and "eps0"
    in the merged mapping and any other number of children, the
    constructor raises [ValueError] right after [update], whatever the
    remaining entries are: neither the variables nor the default
    parameter values are assigned. *)
Theorem eps0_needs_three_children self loqs_model conc_model merged eps0 kids :
  assembled fw self loqs_model conc_model merged ->
  is_Some (variables merged !! "c0") ->
  variables merged !! "eps0" = Some eps0 ->
  children eps0 = Returned kids ->
  length kids <> 3%nat ->
  __init__ fw self = (assembly_steps, Raises ValueError).
Proof.
  intros (base & j & Hb & Hl & Hj & Hc & Hu) [c0 Hc0] Heps0 Hkids Hlen.
  replay.
  destruct (unpack3 kids) as [[[a b] d]|e] eqn:Hun.
  - apply unpack3_returned in Hun as ->. simpl in Hlen. lia.
  - apply unpack3_raises in Hun as [-> _]. reflexivity.
Qed.

(** A run either gets through the extraction of the nine values, or stops
    no later than [update]. *)
Lemma init_extracts_or_stops_early self :
  (exists loqs_model conc_model merged c0 eps_0n eps_0s eps_0p eta_0n eta_0p Phi0 V0 c,
      assembled fw self loqs_model conc_model merged /\
      extracted merged c0 eps_0n eps_0s eps_0p eta_0n eta_0p Phi0 V0 c)
  \/ fst (__init__ fw self) `prefix_of` assembly_steps.
Proof.
  expose.
  destruct (BaseModel_init fw self) as [base|e] eqn:Hbase; crunch;
    [| right; by eexists].
  destruct (lead_acid_LOQS fw) as [loqs_model|e] eqn:Hloqs; crunch;
    [| right; by eexists].
  destruct (interface_homogeneous_reaction fw) as [j|e] eqn:Hj; crunch;
    [| right; by eexists].
  destruct (electrolyte_StefanMaxwellDiffusionWithPorosity fw j)
    as [conc_model|e] eqn:Hconc; crunch;
    [| right; by eexists].
  destruct (update fw base [loqs_model; conc_model]) as [merged|e] eqn:Hup; crunch;
    [| right; by eexists].
  destruct (variables merged !! "c0") as [c0|] eqn:Hc0; crunch;
    [| right; by eexists].
  destruct (variables merged !! "eps0") as [eps0|] eqn:Heps0; crunch;
    [| right; by eexists].
  destruct (children eps0) as [kids|e] eqn:Hkids; crunch;
    [| right; by eexists].
  destruct (unpack3 kids) as [[[eps_0n eps_0s] eps_0p]|e] eqn:Hun; crunch;
    [| right; by eexists].
  apply unpack3_returned in Hun as ->.
  destruct (variables merged !! "eta_0n") as [eta_0n|] eqn:Heta_0n; crunch;
    [| right; by eexists].
  destruct (variables merged !! "eta_0p") as [eta_0p|] eqn:Heta_0p; crunch;
    [| right; by eexists].
  destruct (variables merged !! "Phi0") as [Phi0|] eqn:HPhi0; crunch;
    [| right; by eexists].
  destruct (variables merged !! "V0") as [V0|] eqn:HV0; crunch;
    [| right; by eexists].
  destruct (variables merged !! "c") as [c|] eqn:Hc; crunch;
    [| right; by eexists].
  left. exists loqs_model, conc_model, merged, c0, eps_0n, eps_0s, eps_0p,
    eta_0n, eta_0p, Phi0, V0, c.
  split; [exists base, j; auto | exists eps0; auto 10].
Qed.

(** X3: the parameter file is loaded only after the extraction has
    succeeded: in every run in which the loader is called, the framework
    calls before it returned, the seven entries were present and [eps0]
    had three children. *)
Theorem loader_called_only_after_extraction self :
  S_ParameterValues ∈ fst (__init__ fw self) ->
  exists loqs_model conc_model merged c0 eps_0n eps_0s eps_0p eta_0n eta_0p Phi0 V0 c,
    assembled fw self loqs_model conc_model merged /\
    extracted merged c0 eps_0n eps_0s eps_0p eta_0n eta_0p Phi0 V0 c.
Proof.
  intros Hin.
  destruct (init_extracts_or_stops_early self) as [Hex | [k Hk]]; [exact Hex|].
  assert (Hin' : S_ParameterValues ∈ assembly_steps).
  { rewrite Hk. apply elem_of_app. by left. }
  unfold assembly_steps in Hin'. split_elem Hin'.
Qed.

(** X4: after [update], the constructor writes [variables] and
    [default_parameter_values] and nothing else: the rest of the returned
    model is the rest of the merged model. *)
Theorem rest_of_model_kept self m :
  constructs fw self m ->
  exists loqs_model conc_model merged,
    assembled fw self loqs_model conc_model merged /\
    rest m = rest merged.
Proof.
  intros Hm.
  destruct (init_returns_inv self m Hm)
    as (lq & cm & mg & c0 & en & es & ep & tn & tp & P0 & V0 & c & pv
        & Ha & _ & _ & -> & _).
  by exists lq, cm, mg.
Qed.

End Properties.

(** * The constructor on the small framework *)

Example good_run :
  __init__ Demo.good Demo.fresh = (construction_steps, Returned (tt, Demo.built)).
Proof. reflexivity. Qed.

Example good_rerun :
  __init__ Demo.good Demo.built = (construction_steps, Returned (tt, Demo.rebuilt)).
Proof. reflexivity. Qed.

Example no_c0_run :
  __init__ Demo.no_c0 Demo.fresh
  = ([S_BaseModel_init; S_LOQS; S_homogeneous_reaction;
      S_StefanMaxwellDiffusionWithPorosity; S_update],
     Raises (KeyError "c0")).
Proof. reflexivity. Qed.

Example bad_csv_run :
  __init__ Demo.bad_csv Demo.fresh
  = ([S_BaseModel_init; S_LOQS; S_homogeneous_reaction;
      S_StefanMaxwellDiffusionWithPorosity; S_update; S_set_variables;
      S_ParameterValues],
     Raises (Raised "malformed CSV")).
Proof. reflexivity. Qed.

Example good_assembled :
  assembled Demo.good Demo.fresh Demo.loqs (Demo.conc Demo.currents) Demo.merged.
Proof. eexists _, _. split_and!; reflexivity. Qed.

Example good_extracted :
  extracted Demo.merged (Demo.var "c0") (Demo.var "eps_n") (Demo.var "eps_s")
    (Demo.var "eps_p") (Demo.var "eta_0n") (Demo.var "eta_0p") (Demo.var "Phi0")
    (Demo.var "V0") (Symbol "c" [Demo.currents]).
Proof. eexists. split_and!; reflexivity. Qed.

(** * Instances of the theorems on the small framework *)

Lemma V_is_V0_plus_Cd_V1_witness :
  exists loqs_model conc_model merged c0 eps_0n eps_0s eps_0p eta_0n eta_0p Phi0 V0 c,
    assembled Demo.good Demo.fresh loqs_model conc_model merged /\
    extracted merged c0 eps_0n eps_0s eps_0p eta_0n eta_0p Phi0 V0 c /\
    variables Demo.built !! "V" =
      Some (Addition V0
              (Multiplication (Demo.var "Cd")
                 (stated_V1
                    (stated_average (Phi1 Demo.good c0 eps_0n eps_0s eps_0p eta_0n c)
                       (SpatialVariable "x" ["positive electrode"]) (Demo.var "lp"))
                    (Symbol "dUPbO2dc" [c0])
                    (stated_average (c1 Demo.good c0 c)
                       (SpatialVariable "x" ["positive electrode"]) (Demo.var "lp"))
                    (stated_average (Num 1)
                       (SpatialVariable "x" ["positive electrode"]) (Demo.var "lp"))
                    eta_0p
                    (Symbol "j0p" [c0])))).
Proof.
  apply (V_is_V0_plus_Cd_V1 Demo.good Demo.fresh Demo.built).
  reflexivity.
Defined.

Lemma Phi_is_Phi0_plus_Cd_Phi1_witness :
  exists loqs_model conc_model merged c0 eps_0n eps_0s eps_0p eta_0n eta_0p Phi0 V0 c,
    assembled Demo.good Demo.fresh loqs_model conc_model merged /\
    extracted merged c0 eps_0n eps_0s eps_0p eta_0n eta_0p Phi0 V0 c /\
    variables Demo.built !! "Phi" =
      Some (Addition Phi0
              (Multiplication (Demo.var "Cd")
                 (stated_Phi1 (Symbol "chi" [c0]) c0 (c1 Demo.good c0 c)
                    (stated_Phi_1n (Demo.var "icell")
                       (SpatialVariable "x" ["negative electrode"])
                       (Demo.var "ln") (Symbol "kappa" [c0; eps_0n]))
                    (stated_Phi_1s (Demo.var "icell")
                       (SpatialVariable "x" ["separator"])
                       (Demo.var "ln") (Symbol "kappa" [c0; eps_0s])
                       (Symbol "kappa" [c0; eps_0n]))
                    (stated_Phi_1p (Demo.var "icell")
                       (SpatialVariable "x" ["positive electrode"])
                       (Demo.var "ln") (Demo.var "ls") (Demo.var "lp")
                       (Symbol "kappa" [c0; eps_0n]) (Symbol "kappa" [c0; eps_0s])
                       (Symbol "kappa" [c0; eps_0p]))
                    (stated_An (j0bar_1n Demo.good) eta_0n (Symbol "j0n" [c0])
                       (Symbol "dUPbdc" [c0]) (cbar_1n Demo.good c0 c)
                       (Symbol "chi" [c0]) c0 (Demo.var "icell") (Demo.var "ln")
                       (Symbol "kappa" [c0; eps_0n]))))).
Proof.
  apply (Phi_is_Phi0_plus_Cd_Phi1 Demo.good Demo.fresh Demo.built).
  reflexivity.
Defined.

(** C3 as written fails: after the constructor has returned, the entry
    "c0" that the leading-order submodel contributed, and that [update]
    merged into the model, is no longer in the model's variables. *)
Lemma submodel_variables_not_kept :
  constructs Demo.good Demo.fresh Demo.built /\
  assembled Demo.good Demo.fresh Demo.loqs (Demo.conc Demo.currents) Demo.merged /\
  variables Demo.loqs ⊆ variables Demo.merged /\
  ~ (variables Demo.loqs ⊆ variables Demo.built).
Proof.
  split_and!.
  - reflexivity.
  - exact good_assembled.
  - apply map_subseteq_spec. intros k v Hk.
    change (variables Demo.merged)
      with (variables (Demo.conc Demo.currents) ∪ variables Demo.loqs).
    apply lookup_union_Some_raw. right. split; [|exact Hk].
    simpl. apply lookup_singleton_None. intros <-. discriminate Hk.
  - intros Hsub.
    pose proof (proj1 (map_subseteq_spec _ _) Hsub "c0" (Demo.var "c0") eq_refl) as H.
    discriminate H.
Qed.

Lemma construction_steps_in_order_witness :
  fst (__init__ Demo.good Demo.fresh) =
    [S_BaseModel_init; S_LOQS; S_homogeneous_reaction;
     S_StefanMaxwellDiffusionWithPorosity; S_update; S_set_variables;
     S_ParameterValues; S_set_default_parameter_values] /\
  exists base loqs_model j conc_model merged
         c0 eps_0n eps_0s eps_0p eta_0n eta_0p Phi0 V0 c pv,
    BaseModel_init Demo.good Demo.fresh = Returned base /\
    lead_acid_LOQS Demo.good = Returned loqs_model /\
    interface_homogeneous_reaction Demo.good = Returned j /\
    electrolyte_StefanMaxwellDiffusionWithPorosity Demo.good j = Returned conc_model /\
    update Demo.good base [loqs_model; conc_model] = Returned merged /\
    variables merged = variables conc_model ∪ (variables loqs_model ∪ variables base) /\
    extracted merged c0 eps_0n eps_0s eps_0p eta_0n eta_0p Phi0 V0 c /\
    variables Demo.built =
      new_variables Demo.good c0 eps_0n eps_0s eps_0p eta_0n eta_0p Phi0 V0 c /\
    dom (variables Demo.built) = ({[ "c"; "Phi"; "V" ]} : gset string) /\
    ParameterValues Demo.good "input/parameters/lead-acid/default.csv"
                    {[ "current scale" := 1 ]} = Returned pv /\
    default_parameter_values Demo.built = Some pv.
Proof.
  apply (construction_steps_in_order Demo.good Demo.fresh Demo.built).
  reflexivity.
Defined.

Lemma faults_propagate_witness :
  snd (__init__ Demo.no_c0 Demo.fresh) = Raises (KeyError "c0") /\
  snd (__init__ Demo.bad_csv Demo.fresh) = Raises (Raised "malformed CSV").
Proof.
  split.
  - apply (faults_propagate Demo.no_c0 Demo.fresh).
    eapply (fault_missing_key Demo.no_c0 Demo.fresh
              Demo.loqs_without_c0 (Demo.conc Demo.currents) _
              [] "c0" ["eps0"; "eta_0n"; "eta_0p"; "Phi0"; "V0"; "c"]%string).
    + eexists _, _. repeat split; reflexivity.
    + reflexivity.
    + intros k Hk. inversion Hk.
    + intros eps0 Hin. inversion Hin.
    + reflexivity.
  - apply (faults_propagate Demo.bad_csv Demo.fresh).
    eapply (fault_ParameterValues Demo.bad_csv Demo.fresh
              Demo.loqs (Demo.conc Demo.currents) Demo.merged
              (Demo.var "c0") (Demo.var "eps_n") (Demo.var "eps_s")
              (Demo.var "eps_p") (Demo.var "eta_0n") (Demo.var "eta_0p")
              (Demo.var "Phi0") (Demo.var "V0") (Symbol "c" [Demo.currents])).
    + eexists _, _. repeat split; reflexivity.
    + eexists. repeat split; reflexivity.
    + reflexivity.
Defined.



Lemma default_parameter_values_overwritten_witness :
  exists loqs_model conc_model merged pv,
    assembled Demo.good Demo.fresh loqs_model conc_model merged /\
    ParameterValues Demo.good "input/parameters/lead-acid/default.csv"
                    {[ "current scale" := 1 ]} = Returned pv /\
    default_parameter_values Demo.built = Some pv.
Proof.
  apply (default_parameter_values_overwritten Demo.good Demo.fresh Demo.built).
  reflexivity.
Defined.

Lemma variables_keys_exactly_c_Phi_V_witness :
  dom (variables Demo.built) = ({[ "c"; "Phi"; "V" ]} : gset string) /\
  (forall k, k ∉ ["c"; "Phi"; "V"] -> variables Demo.built !! k = None) /\
  exists loqs_model conc_model merged,
    assembled Demo.good Demo.fresh loqs_model conc_model merged /\
    forall k, k ∈ ["c0"; "eps0"; "eta_0n"; "eta_0p"; "Phi0"; "V0"] ->
              is_Some (variables merged !! k) /\ variables Demo.built !! k = None.
Proof.
  apply (variables_keys_exactly_c_Phi_V Demo.good Demo.fresh Demo.built).
  reflexivity.
Defined.

Lemma first_order_concentration_round_trip_witness :
  eval Demo.rho (Demo.var "Cd") = Q2Qc (inject_Z 2) /\
  c1 Demo.good (Demo.var "c0") (Demo.var "c")
  = stated_c1 (Demo.var "c") (Demo.var "c0") (Demo.var "Cd") /\
  eval Demo.rho
    (Addition (Demo.var "c0")
       (Multiplication (Demo.var "Cd") (c1 Demo.good (Demo.var "c0") (Demo.var "c"))))
  = eval Demo.rho (Demo.var "c").
Proof.
  split; [reflexivity|].
  apply (first_order_concentration_round_trip Demo.good
           (Demo.var "c0") (Demo.var "c") Demo.rho).
  simpl. intros H. discriminate (f_equal this H).
Defined.

Lemma c_passed_through_unchanged_witness :
  exists loqs_model conc_model merged c,
    assembled Demo.good Demo.fresh loqs_model conc_model merged /\
    variables merged !! "c" = Some c /\
    variables Demo.built !! "c" = Some c.
Proof.
  apply (c_passed_through_unchanged Demo.good Demo.fresh Demo.built).
  reflexivity.
Defined.

(** * The variables depend on the seven entries only *)

Section Dependence.

Context {PV Rest : Type}.

Implicit Types fw : Framework PV Rest.
Implicit Types self m merged : BaseModel PV Rest.

Lemma assembled_merged_unique fw self lq cm merged lq' cm' merged' :
  assembled fw self lq cm merged ->
  assembled fw self lq' cm' merged' ->
  merged' = merged.
Proof.
  intros (base & j & Hb & Hl & Hj & Hc & Hu) (base' & j' & Hb' & Hl' & Hj' & Hc' & Hu').
  assert (base' = base) as -> by congruence.
  assert (lq' = lq) as -> by congruence.
  assert (j' = j) as -> by congruence.
  assert (cm' = cm) as -> by congruence.
  congruence.
Qed.

Lemma same_parameters_new_variables fw fw'
    c0 eps_0n eps_0s eps_0p eta_0n eta_0p Phi0 V0 c :
  same_parameters fw fw' ->
  new_variables fw c0 eps_0n eps_0s eps_0p eta_0n eta_0p Phi0 V0 c
  = new_variables fw' c0 eps_0n eps_0s eps_0p eta_0n eta_0p Phi0 V0 c.
Proof.
  intros (Hln & Hls & Hlp & HCd & Hi & Hk & Hchi & Hjn & Hjp & HdU & HdO).
  unfold new_variables, V1, Phibar_1p, cbar_1p, j0bar_1p, Phi1, Phi_1n, Phi_1s, Phi_1p,
    An, cbar_1n, j0bar_1n, c1, dUPbdc, dUPbO2dc, j0_0n, j0_0p, chi0,
    kappa_0n, kappa_0s, kappa_0p, icell, Cd, ln, ls, lp.
  rewrite Hln, Hls, Hlp, HCd, Hi, Hk, Hchi, Hjn, Hjp, HdU, HdO.
  reflexivity.
Qed.

(** X5: the variables of the constructed model depend on the merged
    mapping through the seven entries read, and on nothing else the
    submodels define: two constructions, under frameworks with the same
    standard parameters, whose merged mappings agree on these seven keys
    end with the same variables mapping. *)
Theorem variables_depend_on_keys_read
    fw fw' self self' m m' lq cm merged lq' cm' merged' :
  same_parameters fw fw' ->
  constructs fw self m ->
  constructs fw' self' m' ->
  assembled fw self lq cm merged ->
  assembled fw' self' lq' cm' merged' ->
  (forall k, k ∈ keys_read -> variables merged' !! k = variables merged !! k) ->
  variables m' = variables m.
Proof.
  intros Hpar Hm Hm' Ha Ha' Hkeys.
  destruct (init_returns_inv fw self m Hm)
    as (lq1 & cm1 & mg1 & c0 & en & es & ep & tn & tp & P0 & V0 & c & pv
        & Ha1 & (eps0 & Hc0 & Heps0 & Hkids & Htn & Htp & HP0 & HV0 & Hcc) & _ & -> & _).
  destruct (init_returns_inv fw' self' m' Hm')
    as (lq2 & cm2 & mg2 & c0' & en' & es' & ep' & tn' & tp' & P0' & V0' & c' & pv'
        & Ha2 & (eps0' & Hc0' & Heps0' & Hkids' & Htn' & Htp' & HP0' & HV0' & Hcc')
        & _ & -> & _).
  rewrite (assembled_merged_unique _ _ _ _ _ _ _ _ Ha Ha1) in *.
  rewrite (assembled_merged_unique _ _ _ _ _ _ _ _ Ha' Ha2) in *.
  unfold keys_read in Hkeys.
  rewrite Hkeys in Hc0', Heps0', Htn', Htp', HP0', HV0', Hcc'
    by (repeat first [apply list_elem_of_here | apply list_elem_of_further]).
  assert (c0' = c0) as -> by congruence.
  assert (eps0' = eps0) as -> by congruence.
  assert (tn' = tn) as -> by congruence.
  assert (tp' = tp) as -> by congruence.
  assert (P0' = P0) as -> by congruence.
  assert (V0' = V0) as -> by congruence.
  assert (c' = c) as -> by congruence.
  rewrite Hkids in Hkids'. injection Hkids' as -> -> ->.
  simpl. symmetry. by apply same_parameters_new_variables.
Qed.

(** * Determinism and the absence of branches *)

Lemma extracted_unique merged
    c0 eps_0n eps_0s eps_0p eta_0n eta_0p Phi0 V0 c
    c0' eps_0n' eps_0s' eps_0p' eta_0n' eta_0p' Phi0' V0' c' :
  extracted merged c0 eps_0n eps_0s eps_0p eta_0n eta_0p Phi0 V0 c ->
  extracted merged c0' eps_0n' eps_0s' eps_0p' eta_0n' eta_0p' Phi0' V0' c' ->
  c0' = c0 /\ eps_0n' = eps_0n /\ eps_0s' = eps_0s /\ eps_0p' = eps_0p /\
  eta_0n' = eta_0n /\ eta_0p' = eta_0p /\ Phi0' = Phi0 /\ V0' = V0 /\ c' = c.
Proof.
  intros (eps0 & Hc0 & Heps0 & Hkids & Htn & Htp & HP0 & HV0 & Hcc)
         (eps0' & Hc0' & Heps0' & Hkids' & Htn' & Htp' & HP0' & HV0' & Hcc').
  assert (eps0' = eps0) as -> by congruence.
  rewrite Hkids in Hkids'. injection Hkids' as -> -> ->.
  split_and!; congruence.
Qed.

(** The derived variables are built from the nine values without looking
    into them. *)
Lemma new_variables_natural fw fw' (h : expr -> expr)
    c0 eps_0n eps_0s eps_0p eta_0n eta_0p Phi0 V0 c :
  node_homomorphism h ->
  parameters_related h fw fw' ->
  new_variables fw' (h c0) (h eps_0n) (h eps_0s) (h eps_0p)
                (h eta_0n) (h eta_0p) (h Phi0) (h V0) (h c)
  = h <$> new_variables fw c0 eps_0n eps_0s eps_0p eta_0n eta_0p Phi0 V0 c.
Proof.
  intros (Hnum & Hsv & Hneg & Hadd & Hsub & Hmul & Hdiv & Hpow & Hint & Hfun & Hcat)
         (Hln & Hls & Hlp & HCd & Hi & Hk & Hchi & Hjn & Hjp & HdU & HdO).
  unfold new_variables, V1, Phibar_1p, cbar_1p, j0bar_1p, Phi1, Phi_1n, Phi_1s, Phi_1p,
    An, cbar_1n, j0bar_1n, c1, dUPbdc, dUPbO2dc, j0_0n, j0_0p, j0_1n, j0_1p, chi0,
    kappa_0n, kappa_0s, kappa_0p, icell, Cd, ln, ls, lp, xn, xs, xp.
  rewrite !fmap_insert, map_fmap_singleton.
  repeat first
    [ rewrite Hadd | rewrite Hsub | rewrite Hmul | rewrite Hdiv | rewrite Hpow
    | rewrite Hneg | rewrite Hint | rewrite Hfun | rewrite Hcat
    | rewrite Hnum | rewrite Hsv | progress cbn [map] ].
  rewrite <- ?Hk, <- ?Hchi, <- ?Hjn, <- ?Hjp, <- ?HdU, <- ?HdO.
  rewrite <- ?Hln, <- ?Hls, <- ?Hlp, <- ?HCd, <- ?Hi.
  reflexivity.
Qed.

(** C6: construction is deterministic and free of branches.
    (1) The constructor has no input: it reads nothing of the object it
    is given except through the base-class initialiser, so two runs in
    which the framework answers alike take the same steps and end alike,
    with the same exception or with models of the same variables mapping
    and default parameter values.
    (2) Under every framework the steps taken are an initial part of one
    fixed sequence, and all of it when the constructor returns.
    (3) The constructor does not branch on the values it reads: if the
    values read in one returning run are the images, under a map [h] that
    respects the expression nodes, of the values read in another, and the
    standard parameters likewise, then the variables mapping of the one
    is the image under [h] of the variables mapping of the other. *)
Theorem construction_deterministic_branch_free fw :
  (forall self1 self2,
      BaseModel_init fw self1 = BaseModel_init fw self2 ->
      __init__ fw self1 = __init__ fw self2) /\
  (forall self, fst (__init__ fw self) `prefix_of` construction_steps) /\
  (forall self m, constructs fw self m -> fst (__init__ fw self) = construction_steps) /\
  (forall fw' (h : expr -> expr) self self' m m' lq cm merged lq' cm' merged'
          c0 eps_0n eps_0s eps_0p eta_0n eta_0p Phi0 V0 c,
      node_homomorphism h ->
      parameters_related h fw fw' ->
      constructs fw self m ->
      assembled fw self lq cm merged ->
      extracted merged c0 eps_0n eps_0s eps_0p eta_0n eta_0p Phi0 V0 c ->
      constructs fw' self' m' ->
      assembled fw' self' lq' cm' merged' ->
      extracted merged' (h c0) (h eps_0n) (h eps_0s) (h eps_0p)
                (h eta_0n) (h eta_0p) (h Phi0) (h V0) (h c) ->
      variables m' = h <$> variables m).
Proof.
  split_and!.
  - intros self1 self2 Hsame.
    unfold __init__, mbind, M_bind, bind, modify.
    by rewrite Hsame.
  - intros self.
    destruct (init_outcome fw self)
      as [(lq & cm & mg & c0 & en & es & ep & tn & tp & P0 & V0 & c & pv & _ & _ & _ & Hrun)
         |(t & e & _ & Hrun & Hpre)];
      rewrite Hrun; simpl; [reflexivity | exact Hpre].
  - intros self m Hm.
    destruct (init_returns_inv fw self m Hm)
      as (lq & cm & mg & c0 & en & es & ep & tn & tp & P0 & V0 & c & pv
          & _ & _ & _ & _ & Hsteps).
    exact Hsteps.
  - intros fw' h self self' m m' lq cm merged lq' cm' merged'
           c0 en es ep tn tp P0 V0 c Hh Hpar Hm Ha He Hm' Ha' He'.
    destruct (init_returns_inv fw self m Hm)
      as (lq1 & cm1 & mg1 & c0a & ena & esa & epa & tna & tpa & P0a & V0a & ca & pv
          & Ha1 & He1 & _ & -> & _).
    destruct (init_returns_inv fw' self' m' Hm')
      as (lq2 & cm2 & mg2 & c0b & enb & esb & epb & tnb & tpb & P0b & V0b & cb & pv'
          & Ha2 & He2 & _ & -> & _).
    rewrite (assembled_merged_unique _ _ _ _ _ _ _ _ Ha Ha1) in He1.
    rewrite (assembled_merged_unique _ _ _ _ _ _ _ _ Ha' Ha2) in He2.
    destruct (extracted_unique _ _ _ _ _ _ _ _ _ _ _ _ _ _ _ _ _ _ _ He He1)
      as (-> & -> & -> & -> & -> & -> & -> & -> & ->).
    destruct (extracted_unique _ _ _ _ _ _ _ _ _ _ _ _ _ _ _ _ _ _ _ He' He2)
      as (-> & -> & -> & -> & -> & -> & -> & -> & ->).
    simpl. by apply new_variables_natural.
Qed.

(** * The first-order potential across the cell *)

Variable fw : Framework PV Rest.
Variables (c0 eps_0n eps_0s eps_0p : expr).
Variable rho : expr -> Qc.

(** X6: at the current collector of the negative electrode, [xn = 0],
    the negative-electrode part [Phi_1n] of the first-order potential
    reads zero. *)
Theorem Phi_1n_zero_at_collector :
  rho xn = 0%Qc ->
  value rho (Phi_1n fw c0 eps_0n) = 0%Qc.
Proof.
  intros Hx. unfold xn in Hx. unfold Phi_1n.
  cbn -[Qcplus Qcmult Qcdiv Qcopp].
  change (Z.to_nat 2) with 2%nat. cbn [Qcpower].
  rewrite Hx. unfold Qcdiv. ring.
Qed.

(** X7: the first-order potential is continuous where the negative
    electrode meets the separator: at [xn = xs = ln], with [ln] not zero,
    [Phi_1n] and [Phi_1s] read the same. *)
Theorem Phi_1_continuous_negative_separator :
  value rho (ln fw) <> 0%Qc ->
  rho xn = value rho (ln fw) ->
  rho xs = value rho (ln fw) ->
  value rho (Phi_1n fw c0 eps_0n) = value rho (Phi_1s fw c0 eps_0n eps_0s).
Proof.
  intros Hln Hxn Hxs. unfold xn in Hxn. unfold xs in Hxs. unfold Phi_1n, Phi_1s.
  cbn -[Qcplus Qcmult Qcdiv Qcopp Qcminus].
  change (Z.to_nat 2) with 2%nat. cbn [Qcpower].
  rewrite Hxn, Hxs.
  set (L := value rho (ln fw)) in *.
  set (kn := value rho (kappa_0n fw c0 eps_0n)).
  set (ks := value rho (kappa_0s fw c0 eps_0s)).
  set (i := value rho (icell fw)).
  destruct (Qc_eq_dec kn 0%Qc) as [Hk | Hk].
  - rewrite Hk. unfold Qcdiv.
    replace (Q2Qc (inject_Z 2) * L * 0)%Qc with 0%Qc by ring.
    replace (Q2Qc (inject_Z 2) * 0)%Qc with 0%Qc by ring.
    change (/ 0)%Qc with 0%Qc. ring.
  - replace ((L - L) / ks)%Qc with 0%Qc by (unfold Qcdiv; ring).
    field. repeat split; try assumption.
    intros H. discriminate (f_equal this H).
Qed.

(** X8: the first-order potential is continuous where the separator
    meets the positive electrode: at [xs = ln + ls] and [xp = 1 - lp],
    [Phi_1s] and [Phi_1p] read the same. *)
Theorem Phi_1_continuous_separator_positive :
  rho xs = (value rho (ln fw) + value rho (ls fw))%Qc ->
  rho xp = (1 - value rho (lp fw))%Qc ->
  value rho (Phi_1s fw c0 eps_0n eps_0s)
  = value rho (Phi_1p fw c0 eps_0n eps_0s eps_0p).
Proof.
  intros Hxs Hxp. unfold xs in Hxs. unfold xp in Hxp. unfold Phi_1s, Phi_1p.
  cbn -[Qcplus Qcmult Qcdiv Qcopp Qcminus].
  change (Z.to_nat 2) with 2%nat. cbn [Qcpower].
  rewrite Hxs, Hxp.
  set (L := value rho (ln fw)).
  set (Ls := value rho (ls fw)).
  set (P := value rho (lp fw)).
  set (kn := value rho (kappa_0n fw c0 eps_0n)).
  set (ks := value rho (kappa_0s fw c0 eps_0s)).
  set (kp := value rho (kappa_0p fw c0 eps_0p)).
  set (i := value rho (icell fw)).
  change (Q2Qc (inject_Z 1)) with 1%Qc.
  unfold Qcdiv.
  replace (P * (P * 1) - (1 - (1 - P)) * ((1 - (1 - P)) * 1))%Qc with 0%Qc by ring.
  ring.
Qed.

End Dependence.

(** * Instances of the further properties *)

Lemma eps0_needs_three_children_witness :
  variables Demo.merged_two_porosities !! "eta_0n" = None /\
  __init__ Demo.two_porosities Demo.fresh = (assembly_steps, Raises ValueError).
Proof.
  split; [reflexivity|].
  apply (eps0_needs_three_children Demo.two_porosities Demo.fresh
           Demo.loqs_two_porosities (Demo.conc Demo.currents)
           Demo.merged_two_porosities
           (Concatenation [Demo.var "eps_n"; Demo.var "eps_p"])
           [Demo.var "eps_n"; Demo.var "eps_p"]).
  - eexists _, _. repeat split; reflexivity.
  - eexists. reflexivity.
  - reflexivity.
  - reflexivity.
  - simpl. lia.
Defined.

Lemma loader_called_only_after_extraction_witness :
  snd (__init__ Demo.bad_csv Demo.fresh) = Raises (Raised "malformed CSV") /\
  exists loqs_model conc_model merged c0 eps_0n eps_0s eps_0p eta_0n eta_0p Phi0 V0 c,
    assembled Demo.bad_csv Demo.fresh loqs_model conc_model merged /\
    extracted merged c0 eps_0n eps_0s eps_0p eta_0n eta_0p Phi0 V0 c.
Proof.
  split; [reflexivity|].
  apply (loader_called_only_after_extraction Demo.bad_csv Demo.fresh).
  change (fst (__init__ Demo.bad_csv Demo.fresh))
    with [S_BaseModel_init; S_LOQS; S_homogeneous_reaction;
          S_StefanMaxwellDiffusionWithPorosity; S_update; S_set_variables;
          S_ParameterValues].
  repeat first [apply list_elem_of_here | apply list_elem_of_further].
Defined.

Lemma rest_of_model_kept_witness :
  exists loqs_model conc_model merged,
    assembled Demo.good Demo.fresh loqs_model conc_model merged /\
    rest Demo.built = rest merged.
Proof.
  apply (rest_of_model_kept Demo.good Demo.fresh Demo.built).
  reflexivity.
Defined.

Lemma variables_depend_on_keys_read_witness :
  variables Demo.merged_verbose <> variables Demo.merged /\
  variables Demo.built_verbose = variables Demo.built.
Proof.
  split.
  - intros H. discriminate (f_equal (fun d => d !! "j0") H).
  - apply (variables_depend_on_keys_read Demo.good Demo.verbose
             Demo.fresh Demo.fresh Demo.built Demo.built_verbose
             Demo.loqs (Demo.conc Demo.currents) Demo.merged
             Demo.loqs_and_more (Demo.conc Demo.currents) Demo.merged_verbose).
    + repeat split; reflexivity.
    + reflexivity.
    + reflexivity.
    + eexists _, _. repeat split; reflexivity.
    + eexists _, _. repeat split; reflexivity.
    + intros k Hk. unfold keys_read in Hk.
      repeat (apply elem_of_cons in Hk as [-> | Hk]; [reflexivity|]).
      by apply elem_of_nil in Hk.
Defined.

Lemma Phi_1n_zero_at_collector_witness :
  value (Demo.at_point 0%Qc) (Phi_1n Demo.good (Demo.var "c0") (Demo.var "eps_n")) = 0%Qc.
Proof.
  apply (Phi_1n_zero_at_collector Demo.good (Demo.var "c0") (Demo.var "eps_n")
           (Demo.at_point 0%Qc)).
  reflexivity.
Defined.

Lemma Phi_1_continuous_negative_separator_witness :
  value (Demo.at_point Demo.quarter)
    (Phi_1n Demo.good (Demo.var "c0") (Demo.var "eps_n"))
  = value (Demo.at_point Demo.quarter)
      (Phi_1s Demo.good (Demo.var "c0") (Demo.var "eps_n") (Demo.var "eps_s")).
Proof.
  apply (Phi_1_continuous_negative_separator Demo.good
           (Demo.var "c0") (Demo.var "eps_n") (Demo.var "eps_s")
           (Demo.at_point Demo.quarter)).
  - simpl. intros H. discriminate (f_equal this H).
  - reflexivity.
  - reflexivity.
Defined.

Lemma Phi_1_continuous_separator_positive_witness :
  value (Demo.at_point Demo.half)
    (Phi_1s Demo.good (Demo.var "c0") (Demo.var "eps_n") (Demo.var "eps_s"))
  = value (Demo.at_point Demo.half)
      (Phi_1p Demo.good (Demo.var "c0") (Demo.var "eps_n") (Demo.var "eps_s")
         (Demo.var "eps_p")).
Proof.
  apply (Phi_1_continuous_separator_positive Demo.good
           (Demo.var "c0") (Demo.var "eps_n") (Demo.var "eps_s") (Demo.var "eps_p")
           (Demo.at_point Demo.half)).
  - apply Qc_is_canon. reflexivity.
  - apply Qc_is_canon. reflexivity.
Defined.

Lemma raises_is_fault_witness :
  fault Demo.no_c0 Demo.fresh (KeyError "c0").
Proof.
  apply (raises_is_fault Demo.no_c0 Demo.fresh).
  reflexivity.
Defined.

(** * An instance of determinism and the absence of branches *)

Lemma subst_node_homomorphism (s : string -> option expr) :
  node_homomorphism (subst s).
Proof. repeat split. Qed.

Lemma construction_deterministic_branch_free_witness :
  __init__ Demo.good Demo.fresh = __init__ Demo.good Demo.stale /\
  fst (__init__ Demo.no_c0 Demo.fresh) `prefix_of` construction_steps /\
  fst (__init__ Demo.good Demo.fresh) = construction_steps /\
  variables Demo.built_numeric = subst Demo.c0_is_seven <$> variables Demo.built.
Proof.
  split_and!.
  - apply (proj1 (construction_deterministic_branch_free Demo.good)).
    reflexivity.
  - apply (proj1 (proj2 (construction_deterministic_branch_free Demo.no_c0))).
  - apply (proj1 (proj2 (proj2 (construction_deterministic_branch_free Demo.good)))
             Demo.fresh Demo.built).
    reflexivity.
  - apply (proj2 (proj2 (proj2 (construction_deterministic_branch_free Demo.good)))
             Demo.numeric (subst Demo.c0_is_seven)
             Demo.fresh Demo.fresh Demo.built Demo.built_numeric
             Demo.loqs (Demo.conc Demo.currents) Demo.merged
             Demo.loqs_numeric (Demo.conc Demo.currents) Demo.merged_numeric
             (Demo.var "c0") (Demo.var "eps_n") (Demo.var "eps_s") (Demo.var "eps_p")
             (Demo.var "eta_0n") (Demo.var "eta_0p") (Demo.var "Phi0") (Demo.var "V0")
             (Symbol "c" [Demo.currents])).
    + repeat split.
    + repeat split.
    + reflexivity.
    + eexists _, _. repeat split; reflexivity.
    + eexists. repeat split; reflexivity.
    + reflexivity.
    + eexists _, _. repeat split; reflexivity.
    + eexists. repeat split; reflexivity.
Defined.
